(** * HSE incident analysis: the cause-effect tree data of [app.ts]

    A shallow embedding of the component class [App] of
    [src/app/app.ts]: the node model [TreeNodeData], the generic data
    generator [generateGenericData], the mock provider [fakeApiCall] with
    its fixture table [mockDataMap], and the controller methods
    [generateDiagram] and [printDiagram] as transitions on an explicit
    component state that also record the effects they perform. *)

From Stdlib Require Import Ascii.
From stdpp Require Import gmap strings pretty list fin_maps.

Local Open Scope string_scope.
Local Open Scope Z_scope.

(** ** Data model *)

(** [interface TreeNodeData { key: number; name: string; parent?: number }].
    Keys are the integer values the code writes; an absent [parent] is
    [None]. *)
Record TreeNodeData := mkNode {
  key : Z;
  parent : option Z;
  name : string
}.

(** The object literals of the source, [{ key: k, name: n }] and
    [{ key: k, parent: p, name: n }]. *)
Definition root_node (k : Z) (n : string) : TreeNodeData := mkNode k None n.
Definition child_node (k p : Z) (n : string) : TreeNodeData := mkNode k (Some p) n.

(** ** Queries on a node list *)

Definition keys (data : list TreeNodeData) : list Z := map key data.

(** The nodes without a [parent] field. *)
Definition roots (data : list TreeNodeData) : list TreeNodeData :=
  filter (λ n, parent n = None) data.

(** The nodes whose [parent] field is [k]. *)
Definition children (k : Z) (data : list TreeNodeData) : list TreeNodeData :=
  filter (λ n, parent n = Some k) data.

(** The nodes displayed with the label [nm]. *)
Definition named (nm : string) (data : list TreeNodeData) : list TreeNodeData :=
  filter (λ n, name n = nm) data.

(** Every [parent] field is the key of a node of the list other than the
    node carrying it. *)
Definition parent_resolves (data : list TreeNodeData) (n : TreeNodeData) : bool :=
  match parent n with
  | None => true
  | Some p => bool_decide (p ∈ keys data) && bool_decide (p ≠ key n)
  end.

Definition parents_resolve (data : list TreeNodeData) : bool :=
  forallb (parent_resolves data) data.

Definition unique_keys (data : list TreeNodeData) : bool :=
  bool_decide (NoDup (keys data)).

(** ** generateGenericData *)

Module Generic.

Definition causes : list string :=
  ["Human Factor"; "Equipment Issue"; "Environmental Factor"; "Process Failure"].
Definition effects : list string :=
  ["Injury"; "Property Damage"; "Work Disruption"; "Regulatory Issue"].

Definition numCauses : nat := 2.
Definition numEffects : nat := 2.

(** [pool[i]] inside a template literal: an index past the end reads
    [undefined], which the template prints as that word. *)
Definition label (pool : list string) (i : nat) : string :=
  default "undefined" (pool !! i).

(** The two mutable locals of the function: the array under construction
    and the running [nodeId]. *)
Record Locals := mkLocals { data : list TreeNodeData; nodeId : Z }.

Definition push (n : TreeNodeData) (st : Locals) : Locals :=
  mkLocals (data st ++ [n]) (nodeId st).

Definition incr (st : Locals) : Locals := mkLocals (data st) (nodeId st + 1).

(** [for (let i = 0; i < n; i++) body]: the body at 0, 1, ..., n-1. *)
Definition for_loop (n : nat) (body : nat → Locals → Locals)
    (st : Locals) : Locals :=
  foldl (λ acc i, body i acc) st (seq 0 n).

(** Body of the first loop. *)
Definition cause_body (level : Z) (i : nat) (st : Locals) : Locals :=
  let st := push (child_node (nodeId st) 1 ("Cause: " +:+ label causes i)) st in
  let st :=
    if bool_decide (2 ≤ level) && bool_decide (i < 2)%nat then
      let st := push (child_node (nodeId st + 100) (nodeId st)
                        ("Sub-cause " +:+ pretty (i + 1)%nat +:+ ".1")) st in
      if bool_decide (3 ≤ level) then
        push (child_node (nodeId st + 200) (nodeId st)
                ("Sub-cause " +:+ pretty (i + 1)%nat +:+ ".2")) st
      else st
    else st in
  incr st.

(** Body of the second loop. *)
Definition effect_body (level : Z) (i : nat) (st : Locals) : Locals :=
  let st := push (child_node (nodeId st) 1 ("Effect: " +:+ label effects i)) st in
  let st :=
    if bool_decide (2 ≤ level) && bool_decide (i < 2)%nat then
      let st := push (child_node (nodeId st + 300) (nodeId st)
                        ("Secondary Effect " +:+ pretty (i + 1)%nat +:+ ".1")) st in
      if bool_decide (3 ≤ level) then
        push (child_node (nodeId st + 400) (nodeId st)
                ("Long-term Effect " +:+ pretty (i + 1)%nat +:+ ".1")) st
      else st
    else st in
  incr st.

Definition generateGenericData (incident : string) (level : Z)
    : list TreeNodeData :=
  let st := mkLocals [root_node 1 incident] 2 in
  let st := for_loop numCauses (cause_body level) st in
  let st := for_loop numEffects (effect_body level) st in
  data st.

End Generic.

Export Generic.

(** ** fakeApiCall *)

(** The three built-in string functions the component calls.  They belong
    to the platform, not to the repository, so the development is stated
    for any implementation of them; [ascii_builtins] below is the one that
    agrees with the platform on ASCII text. *)

(** A [number] as [parseInt] yields it: an integer or [NaN]. *)
Inductive number := NaN | Int (z : Z).

Class Builtins := {
  toLowerCase : string → string;   (* String.prototype.toLowerCase *)
  trim : string → string;          (* String.prototype.trim *)
  parseInt : string → number       (* parseInt(s), radix omitted *)
}.

(** [s.includes(t)]: [t] occurs in [s] as a contiguous run. *)
Fixpoint starts_with (t s : string) : bool :=
  match t, s with
  | EmptyString, _ => true
  | String a t', String b s' => bool_decide (a = b) && starts_with t' s'
  | String _ _, EmptyString => false
  end.

Fixpoint includes (s t : string) : bool :=
  starts_with t s ||
  match s with
  | EmptyString => false
  | String _ s' => includes s' t
  end.

(** What "contains" means, stated without reference to the search. *)
Definition contains (s t : string) : Prop :=
  ∃ pre post, s = pre +:+ t +:+ post.

Module Fixtures.

Definition fire_1 : list TreeNodeData := [
  root_node 1 "Fire Incident";
  child_node 2 1 "Cause: Electrical Short";
  child_node 3 1 "Effect: Property Damage" ].

Definition fire_2 : list TreeNodeData := [
  root_node 1 "Fire Incident";
  child_node 2 1 "Cause: Electrical Short";
  child_node 3 1 "Cause: Human Error";
  child_node 4 2 "Old Wiring System";
  child_node 5 3 "Lack of Training";
  child_node 6 1 "Effect: Property Damage";
  child_node 7 1 "Effect: Business Interruption" ].

Definition fire_3 : list TreeNodeData := [
  root_node 1 "Fire Incident";
  child_node 2 1 "Cause: Electrical Short";
  child_node 3 1 "Cause: Human Error";
  child_node 4 1 "Cause: Poor Maintenance";
  child_node 5 2 "Overloaded Circuit";
  child_node 6 2 "Faulty Equipment";
  child_node 7 3 "Inadequate Training";
  child_node 8 3 "Safety Protocol Violation";
  child_node 9 1 "Effect: Property Damage";
  child_node 10 1 "Effect: Employee Injuries";
  child_node 11 1 "Effect: Business Disruption" ].

Definition slip_1 : list TreeNodeData := [
  root_node 1 "Slip Incident";
  child_node 2 1 "Cause: Wet Floor";
  child_node 3 1 "Effect: Minor Injury" ].

Definition slip_2 : list TreeNodeData := [
  root_node 1 "Slip Incident";
  child_node 2 1 "Cause: Wet Floor";
  child_node 3 1 "Cause: Poor Lighting";
  child_node 4 2 "No Warning Signs";
  child_node 5 3 "Maintenance Issue";
  child_node 6 1 "Effect: Employee Injury";
  child_node 7 1 "Effect: Work Disruption" ].

Definition slip_3 : list TreeNodeData := [
  root_node 1 "Slip Incident";
  child_node 2 1 "Cause: Wet Floor";
  child_node 3 1 "Cause: Poor Lighting";
  child_node 4 1 "Cause: Inadequate Footwear";
  child_node 5 2 "No Warning Signs";
  child_node 6 2 "Delayed Cleanup";
  child_node 7 3 "Burnt-out Bulbs";
  child_node 8 4 "Non-slip Soles Worn";
  child_node 9 1 "Effect: Employee Injury";
  child_node 10 1 "Effect: Lost Time Incident";
  child_node 11 1 "Effect: Compensation Claim" ].

End Fixtures.

(** [const mockDataMap: Record<string, TreeNodeData[]>]. *)
Definition mockDataMap : gmap string (list TreeNodeData) :=
  <["fire-1" := Fixtures.fire_1]> (
  <["fire-2" := Fixtures.fire_2]> (
  <["fire-3" := Fixtures.fire_3]> (
  <["slip-1" := Fixtures.slip_1]> (
  <["slip-2" := Fixtures.slip_2]> (
  <["slip-3" := Fixtures.slip_3]> ∅))))).

Section Provider.
Context {js : Builtins}.

(** [const incidentType = ...]. *)
Definition incidentType (incident : string) : string :=
  if includes (toLowerCase incident) "fire" then "fire"
  else if includes (toLowerCase incident) "slip" then "slip"
  else "generic".

(** [const key = `${incidentType}-${level}`]; an integer (of magnitude
    below 10^21) prints in decimal, with a leading minus sign when
    negative. *)
Definition lookupKey (incident : string) (level : Z) : string :=
  incidentType incident +:+ "-" +:+ pretty level.

(** The value the returned observable emits: once, after a fixed delay of
    1000 ms, and without ever failing. *)
Definition fakeApiCall (incident : string) (level : Z) : list TreeNodeData :=
  match mockDataMap !! lookupKey incident level with
  | Some mockData => mockData
  | None => generateGenericData incident level
  end.

End Provider.

(** ** The built-ins on ASCII text *)

Module Ascii7.

Definition code (c : ascii) : N := N_of_ascii c.

(** A-Z go to a-z, everything else stays. *)
Definition lower (c : ascii) : ascii :=
  if (65 <=? code c)%N && (code c <=? 90)%N then ascii_of_N (code c + 32) else c.

Fixpoint toLowerCase (s : string) : string :=
  match s with
  | EmptyString => EmptyString
  | String c s' => String (lower c) (toLowerCase s')
  end.

(** Tab, line feed, vertical tab, form feed, carriage return, space. *)
Definition is_white (c : ascii) : bool :=
  ((9 <=? code c)%N && (code c <=? 13)%N) || (code c =? 32)%N.

Fixpoint trim_start (s : string) : string :=
  match s with
  | String c s' => if is_white c then trim_start s' else s
  | EmptyString => EmptyString
  end.

Definition trim (s : string) : string :=
  String.rev (trim_start (String.rev (trim_start s))).

Definition digit_value (c : ascii) : option N :=
  if (48 <=? code c)%N && (code c <=? 57)%N then Some (code c - 48)%N
  else if (97 <=? code c)%N && (code c <=? 122)%N then Some (code c - 87)%N
  else if (65 <=? code c)%N && (code c <=? 90)%N then Some (code c - 55)%N
  else None.

(** The value of the longest prefix of digits of the radix, [None] when
    that prefix is empty. *)
Fixpoint parse_digits (radix : N) (s : string) (acc : option N) : option N :=
  match s with
  | String c s' =>
      match digit_value c with
      | Some d =>
          if (d <? radix)%N
          then parse_digits radix s' (Some (default 0 acc * radix + d)%N)
          else acc
      | None => acc
      end
  | EmptyString => acc
  end.

Definition parseInt (s : string) : number :=
  let s := trim_start s in
  let '(neg, s) :=
    match s with
    | String "-" s' => (true, s')
    | String "+" s' => (false, s')
    | _ => (false, s)
    end in
  let '(radix, s) :=
    match s with
    | String "0" (String "x" s') | String "0" (String "X" s') => (16%N, s')
    | _ => (10%N, s)
    end in
  match parse_digits radix s None with
  | None => NaN
  | Some n => Int (if neg : bool then - Z.of_N n else Z.of_N n)
  end.

End Ascii7.

Definition ascii_builtins : Builtins :=
  {| toLowerCase := Ascii7.toLowerCase;
     trim := Ascii7.trim;
     parseInt := Ascii7.parseInt |}.

(** ** The component: state, effects, generateDiagram, printDiagram *)

(** [element.style.display] as the code writes it; [Unset] is the value
    before the script has assigned one. *)
Inductive Display := Unset | Block | Hidden.

(** The fields of [App] together with the three page elements the methods
    write to and the node data held by [this.diagram.model]. *)
Record App := mkApp {
  incident : string;
  level : option number;          (* number | null *)
  diagramInitialized : bool;
  isLoading : bool;
  model : list TreeNodeData;
  spinner : Display;              (* loadingSpinner.style.display *)
  chart : Display;                (* chartSection.style.display *)
  exportDisabled : bool           (* exportBtn.disabled *)
}.

Inductive Deferred := Print | RevokeObjectURL.

(** What a method does to the outside world, in program order. *)
Inductive Effect :=
| Alert (msg : string)
| ConsoleError
| ApiCall (incident : string) (level : Z)    (* this.fakeApiCall(incident, level) *)
| MakeSvg
| SerializeToString
| CreateObjectURL
| WindowOpen
| DocumentWrite (incident : string) (level : option number)
| DocumentClose
| WindowFocus
| SetTimeout (action : Deferred) (ms : Z)
| SetOnAfterPrint.

(** How the [try] block of [generateDiagram] ends once the awaited value
    is there: it runs to its end, or something in it throws (the awaited
    promise rejects, or building the tree model fails). *)
Inductive Outcome := Completes | Throws.

(** The state after [ngAfterViewInit]: a fresh diagram has no node data and
    [setupFormHandlers] hides the spinner; the chart section and the export
    button are as the page template declares them. *)
Definition init (chart0 : Display) (export0 : bool) : App :=
  mkApp "" None false false [] Hidden chart0 export0.

(** [this.level === null || isNaN(this.level)] fails exactly when the field
    holds an integer; the integer is then what is passed on. *)
Definition checked_level (l : option number) : option Z :=
  match l with
  | None => None
  | Some NaN => None
  | Some (Int z) => Some z
  end.

Section Controller.
Context {js : Builtins}.

(** [generateDiagram] up to the [await]: the state it leaves, its effects,
    and the value the awaited observable will deliver ([None] when the
    method has returned at the validation guard). *)
Definition generateDiagram_begin (s : App)
    : App * list Effect * option (list TreeNodeData) :=
  match (if bool_decide (incident s = "") then None else checked_level (level s)) with
  | None => (s, [Alert "Please fill in both Incident and Level"], None)
  | Some lvl =>
      (mkApp (incident s) (level s) (diagramInitialized s)
             true (model s) Block Hidden true,
       [ApiCall (incident s) lvl],
       Some (fakeApiCall (incident s) lvl))
  end.

(** [generateDiagram] from the [await] on: the rest of the [try] block or
    the [catch] block, then [finally]. *)
Definition generateDiagram_resume (data : list TreeNodeData) (o : Outcome)
    (s : App) : App * list Effect :=
  match o with
  | Completes =>
      (mkApp (incident s) (level s) true false data Hidden Block false, [])
  | Throws =>
      (mkApp (incident s) (level s) (diagramInitialized s) false (model s)
             Hidden (chart s) (exportDisabled s),
       [Alert "Failed to load diagram data"; ConsoleError])
  end.

(** The [submit] listener up to the [await] inside [generateDiagram]. *)
Definition onSubmit (incidentInput levelInput : string) (s : App)
    : App * list Effect * option (list TreeNodeData) :=
  let s := mkApp (trim incidentInput) (level s) (diagramInitialized s)
             (isLoading s) (model s) (spinner s) (chart s) (exportDisabled s) in
  let s := mkApp (incident s) (Some (parseInt levelInput)) (diagramInitialized s)
             (isLoading s) (model s) (spinner s) (chart s) (exportDisabled s) in
  generateDiagram_begin s.

(** [printDiagram]; [svg_ok] says whether [makeSvg] returned an element,
    [win_ok] whether [window.open] returned a window. *)
Definition printDiagram (svg_ok win_ok : bool) (s : App) : App * list Effect :=
  if negb (diagramInitialized s) then
    (s, [Alert "Please generate a diagram first"])
  else if negb svg_ok then
    (s, [MakeSvg; Alert "Failed to generate diagram SVG."])
  else if win_ok then
    (s, [MakeSvg; SerializeToString; CreateObjectURL; WindowOpen;
         DocumentWrite (incident s) (level s); DocumentClose; WindowFocus;
         SetTimeout Print 500; SetOnAfterPrint;
         SetTimeout RevokeObjectURL 30000])
  else
    (s, [MakeSvg; SerializeToString; CreateObjectURL; WindowOpen]).

(** *** The component over time *)

(** The component and the requests that are awaited, oldest first, each
    with the value it delivers.  All requests take the same delay, so
    they are settled in the order they were made. *)
Record System := mkSystem {
  app : App;
  inflight : list (list TreeNodeData)
}.

Inductive Event :=
| Submit (incidentInput levelInput : string)   (* the form is submitted *)
| Settle (o : Outcome)                         (* the oldest request is settled *)
| Export (svg_ok win_ok : bool).               (* printDiagram is called *)

Definition step (e : Event) (sys : System) : System * list Effect :=
  match e with
  | Submit i l =>
      let '(s, fx, req) := onSubmit i l (app sys) in
      (mkSystem s (inflight sys ++ option_list req)%list, fx)
  | Settle o =>
      match inflight sys with
      | [] => (sys, [])
      | data :: rest =>
          let '(s, fx) := generateDiagram_resume data o (app sys) in
          (mkSystem s rest, fx)
      end
  | Export svg_ok win_ok =>
      let '(s, fx) := printDiagram svg_ok win_ok (app sys) in
      (mkSystem s (inflight sys), fx)
  end.

Fixpoint run (es : list Event) (sys : System) : System * list Effect :=
  match es with
  | [] => (sys, [])
  | e :: es' =>
      let '(sys1, fx1) := step e sys in
      let '(sys2, fx2) := run es' sys1 in
      (sys2, (fx1 ++ fx2)%list)
  end.

End Controller.

(** * Vocabulary of the properties *)

(** The tests [level >= 2] and [level >= 3] are the only uses of [level],
    so the generator has three possible results for a given incident. *)
Definition generic_shallow (incident : string) : list TreeNodeData := [
  root_node 1 incident;
  child_node 2 1 "Cause: Human Factor";
  child_node 3 1 "Cause: Equipment Issue";
  child_node 4 1 "Effect: Injury";
  child_node 5 1 "Effect: Property Damage" ].

Definition generic_middle (incident : string) : list TreeNodeData := [
  root_node 1 incident;
  child_node 2 1 "Cause: Human Factor";
  child_node 102 2 "Sub-cause 1.1";
  child_node 3 1 "Cause: Equipment Issue";
  child_node 103 3 "Sub-cause 2.1";
  child_node 4 1 "Effect: Injury";
  child_node 304 4 "Secondary Effect 1.1";
  child_node 5 1 "Effect: Property Damage";
  child_node 305 5 "Secondary Effect 2.1" ].

Definition generic_deep (incident : string) : list TreeNodeData := [
  root_node 1 incident;
  child_node 2 1 "Cause: Human Factor";
  child_node 102 2 "Sub-cause 1.1";
  child_node 202 2 "Sub-cause 1.2";
  child_node 3 1 "Cause: Equipment Issue";
  child_node 103 3 "Sub-cause 2.1";
  child_node 203 3 "Sub-cause 2.2";
  child_node 4 1 "Effect: Injury";
  child_node 304 4 "Secondary Effect 1.1";
  child_node 404 4 "Long-term Effect 1.1";
  child_node 5 1 "Effect: Property Damage";
  child_node 305 5 "Secondary Effect 2.1";
  child_node 405 5 "Long-term Effect 2.1" ].

(** Two levels on the same side of both thresholds run the loop bodies
    alike. *)
Definition same_side (level level' : Z) : Prop :=
  bool_decide (2 ≤ level) = bool_decide (2 ≤ level') ∧
  bool_decide (3 ≤ level) = bool_decide (3 ≤ level').

Definition all_fixtures : list (list TreeNodeData) :=
  [Fixtures.fire_1; Fixtures.fire_2; Fixtures.fire_3;
   Fixtures.slip_1; Fixtures.slip_2; Fixtures.slip_3].

(** Distinct keys, one root, and parents that resolve inside the list. *)
Definition well_formed (d : list TreeNodeData) : bool :=
  unique_keys d && bool_decide (length (roots d) = 1%nat) && parents_resolve d.

(** Every node labelled [pname] has exactly one child, and that child is
    labelled [cname]. *)
Definition sole_child_named (pname cname : string) (d : list TreeNodeData)
    : bool :=
  forallb (λ p, match children (key p) d with
                | [c] => bool_decide (name c = cname)
                | _ => false
                end) (named pname d).

(** Every node labelled [cname] has for parent the key of a node labelled
    [pname]. *)
Definition hangs_under (pname cname : string) (d : list TreeNodeData) : bool :=
  forallb (λ c, bool_decide (parent c ∈ (Some ∘ key) <$> named pname d))
          (named cname d).

(** The third level as a further generation below the second: for both
    branches [i], "Sub-cause i.2" is the one child of "Sub-cause i.1" and
    "Long-term Effect i.1" the one child of "Secondary Effect i.1". *)
Definition third_level_nested (d : list TreeNodeData) : bool :=
  forallb (λ i : Z,
    sole_child_named ("Sub-cause " +:+ pretty i +:+ ".1")
                     ("Sub-cause " +:+ pretty i +:+ ".2") d
    && hangs_under ("Sub-cause " +:+ pretty i +:+ ".1")
                   ("Sub-cause " +:+ pretty i +:+ ".2") d
    && sole_child_named ("Secondary Effect " +:+ pretty i +:+ ".1")
                        ("Long-term Effect " +:+ pretty i +:+ ".1") d
    && hangs_under ("Secondary Effect " +:+ pretty i +:+ ".1")
                   ("Long-term Effect " +:+ pretty i +:+ ".1") d) [1; 2].

(** A page as it is after a fire report at level 2 has been generated. *)
Definition generated_once : System :=
  fst (run (js := ascii_builtins)
           [Submit " Fire in warehouse " "2"; Settle Completes]
           (mkSystem (init Unset true) [])).

(** [k] is the key of a node without parent. *)
Definition is_root_key (d : list TreeNodeData) (k : Z) : bool :=
  existsb (λ r, bool_decide (key r = k) && bool_decide (parent r = None)) d.

(** Every node is a root, the child of a root, or the child of such a
    child: following [parent] at most twice leads to a root. *)
Definition within_two_levels (d : list TreeNodeData) : bool :=
  forallb (λ n,
    match parent n with
    | None => true
    | Some p =>
        is_root_key d p ||
        existsb (λ m, bool_decide (key m = p) &&
                      match parent m with
                      | Some q => is_root_key d q
                      | None => false
                      end) d
    end) d.

(** How many children each cause and each effect gets at a level. *)
Definition fanout (level : Z) : nat := Z.to_nat (Z.min 2 (Z.max 0 (level - 1))).

(** The key allocation of the generator: the root has key 1, the causes
    and effects the keys 2 to 5, and a node below a cause (an effect) has
    its parent's key plus 100 or 200 (plus 300 or 400). *)
Definition follows_key_scheme (n : TreeNodeData) : bool :=
  match parent n with
  | None => key n =? 1
  | Some p =>
      ((p =? 1) && (2 <=? key n) && (key n <=? 5))
      || ((2 <=? p) && (p <=? 3) && ((key n =? p + 100) || (key n =? p + 200)))
      || ((4 <=? p) && (p <=? 5) && ((key n =? p + 300) || (key n =? p + 400)))
  end.

(** The label of the root of the fixtures of a category. *)
Definition fixture_title (category : string) : string :=
  if bool_decide (category = "fire") then "Fire Incident" else "Slip Incident".

(** The visible state of the page is coherent: while loading, the spinner
    shows, the chart is hidden and the export button is disabled; otherwise
    the spinner is hidden; an enabled export button comes with a generated,
    visible diagram; and before any generation the model is empty. *)
Definition ui_consistent (s : App) : Prop :=
  (isLoading s = true →
     spinner s = Block ∧ chart s = Hidden ∧ exportDisabled s = true) ∧
  (isLoading s = false → spinner s = Hidden) ∧
  (exportDisabled s = false → diagramInitialized s = true ∧ chart s = Block) ∧
  (diagramInitialized s = false → model s = []).

(** The diagram holds no node data or a well-formed tree, and so does
    every request that is awaited. *)
Definition trees_ok (sys : System) : Prop :=
  (model (app sys) = [] ∨ well_formed (model (app sys)) = true) ∧
  Forall (λ d, well_formed d = true) (inflight sys).

(** Every parent key is the key of a node met earlier in the list, [seen]
    holding the keys met so far. *)
Fixpoint parents_first_from (seen : list Z) (d : list TreeNodeData) : bool :=
  match d with
  | [] => true
  | n :: rest =>
      match parent n with
      | None => true
      | Some p => bool_decide (p ∈ seen)
      end && parents_first_from (key n :: seen) rest
  end.

Definition parents_first (d : list TreeNodeData) : bool :=
  parents_first_from [] d.

(** * Properties *)

(** ** The generic generator in closed form *)

Lemma generic_shallow_eq incident :
  generateGenericData incident 1 = generic_shallow incident.
Proof. vm_compute. reflexivity. Qed.

Lemma generic_middle_eq incident :
  generateGenericData incident 2 = generic_middle incident.
Proof. vm_compute. reflexivity. Qed.

Lemma generic_deep_eq incident :
  generateGenericData incident 3 = generic_deep incident.
Proof. vm_compute. reflexivity. Qed.

Lemma cause_body_same_side level level' i st :
  same_side level level' → cause_body level i st = cause_body level' i st.
Proof. intros [E2 E3]. unfold cause_body. by rewrite E2, E3. Qed.

Lemma effect_body_same_side level level' i st :
  same_side level level' → effect_body level i st = effect_body level' i st.
Proof. intros [E2 E3]. unfold effect_body. by rewrite E2, E3. Qed.

Lemma for_loop_ext n body body' st :
  (∀ i st', body i st' = body' i st') →
  for_loop n body st = for_loop n body' st.
Proof.
  intros Hext. unfold for_loop. generalize (seq 0 n). intros l.
  revert st. induction l as [|i l IH]; intros st; simpl; [done|].
  by rewrite Hext, IH.
Qed.

Lemma generic_same_side incident level level' :
  same_side level level' →
  generateGenericData incident level = generateGenericData incident level'.
Proof.
  intros Hs. unfold generateGenericData.
  rewrite (for_loop_ext numCauses (cause_body level) (cause_body level'))
    by (intros; by apply cause_body_same_side).
  by rewrite (for_loop_ext numEffects (effect_body level) (effect_body level'))
    by (intros; by apply effect_body_same_side).
Qed.

Lemma same_side_below level : level < 2 → same_side level 1.
Proof.
  intros Hl. split.
  - by rewrite (bool_decide_eq_false_2 (2 ≤ level)) by lia.
  - by rewrite (bool_decide_eq_false_2 (3 ≤ level)) by lia.
Qed.

Lemma same_side_above level : 3 ≤ level → same_side level 3.
Proof.
  intros Hl. split.
  - by rewrite (bool_decide_eq_true_2 (2 ≤ level)) by lia.
  - by rewrite (bool_decide_eq_true_2 (3 ≤ level)) by lia.
Qed.

Lemma generic_below_2 incident level :
  level < 2 → generateGenericData incident level = generic_shallow incident.
Proof.
  intros Hl. rewrite <- generic_shallow_eq.
  by apply generic_same_side, same_side_below.
Qed.

Lemma generic_at_2 incident level :
  level = 2 → generateGenericData incident level = generic_middle incident.
Proof. intros ->. apply generic_middle_eq. Qed.

Lemma generic_from_3 incident level :
  3 ≤ level → generateGenericData incident level = generic_deep incident.
Proof.
  intros Hl. rewrite <- generic_deep_eq.
  by apply generic_same_side, same_side_above.
Qed.

(** The three cases cover every integer. *)
Lemma generic_cases incident level :
  generateGenericData incident level = generic_shallow incident ∨
  generateGenericData incident level = generic_middle incident ∨
  generateGenericData incident level = generic_deep incident.
Proof.
  destruct (Z_lt_le_dec level 2) as [Hlo|Hge].
  - left. by apply generic_below_2.
  - destruct (Z_lt_le_dec level 3) as [Hmid|Hhi].
    + right; left. apply generic_at_2. lia.
    + right; right. by apply generic_from_3.
Qed.


(** ** The fixture table *)

Lemma mockDataMap_range k mockData :
  mockDataMap !! k = Some mockData → mockData ∈ all_fixtures.
Proof.
  unfold mockDataMap, all_fixtures.
  rewrite !lookup_insert_Some, lookup_empty, !elem_of_cons.
  intuition (subst; auto 10; discriminate).
Qed.

(** A decimal numeral determines its integer. *)
Lemma pretty_Z_eq (a b : Z) : pretty a = pretty b → a = b.
Proof. apply (inj pretty). Qed.

Ltac key_differs :=
  let Heq := fresh "Heq" in
  intros Heq; simpl in Heq;
  first
    [ discriminate Heq
    | injection Heq as Heq;
      first [ apply (pretty_Z_eq 1) in Heq
            | apply (pretty_Z_eq 2) in Heq
            | apply (pretty_Z_eq 3) in Heq ];
      lia ].

Lemma lookup_out_of_range (category : string) (level : Z) :
  category = "fire" ∨ category = "slip" →
  ¬ (1 ≤ level ≤ 3) →
  mockDataMap !! (category +:+ "-" +:+ pretty level) = None.
Proof.
  intros Hc Hl. unfold mockDataMap.
  destruct Hc as [-> | ->];
    rewrite !lookup_insert_ne by key_differs; apply lookup_empty.
Qed.

Lemma lookup_generic (level : Z) :
  mockDataMap !! ("generic" +:+ "-" +:+ pretty level) = None.
Proof.
  unfold mockDataMap.
  rewrite !lookup_insert_ne by key_differs. apply lookup_empty.
Qed.

Lemma level_in_range (level : Z) : 1 ≤ level ≤ 3 → level = 1 ∨ level = 2 ∨ level = 3.
Proof. lia. Qed.

Section ProviderFacts.
Context {js : Builtins}.

Lemma incidentType_cases incident :
  incidentType incident = "fire" ∨ incidentType incident = "slip" ∨
  incidentType incident = "generic".
Proof. unfold incidentType. repeat case_match; auto. Qed.

(** The provider's answer is a fixture or the generator's output. *)
Lemma fakeApiCall_cases (incident : string) (level : Z) :
  fakeApiCall incident level ∈ all_fixtures ∨
  fakeApiCall incident level = generateGenericData incident level.
Proof.
  unfold fakeApiCall.
  destruct (mockDataMap !! lookupKey incident level) as [mockData|] eqn:Hk.
  - left. by eapply mockDataMap_range.
  - by right.
Qed.

Lemma fakeApiCall_falls_through (incident : string) (level : Z) :
  ¬ (1 ≤ level ≤ 3) ∨ incidentType incident = "generic" →
  mockDataMap !! lookupKey incident level = None ∧
  fakeApiCall incident level = generateGenericData incident level.
Proof.
  intros Hout. unfold fakeApiCall, lookupKey.
  assert (mockDataMap !! (incidentType incident +:+ "-" +:+ pretty level) = None)
    as ->; [|done].
  destruct (incidentType_cases incident) as [Hc|[Hc|Hc]].
  - destruct Hout as [Hl|Hg]; [|congruence].
    apply lookup_out_of_range; auto.
  - destruct Hout as [Hl|Hg]; [|congruence].
    apply lookup_out_of_range; auto.
  - rewrite Hc. apply lookup_generic.
Qed.

End ProviderFacts.

(** ** [includes] finds exactly the contiguous occurrences *)

Lemma starts_with_spec t s :
  starts_with t s = true ↔ ∃ post, s = t +:+ post.
Proof.
  revert s. induction t as [|a t IH]; intros s; simpl.
  - split; [intros _; by exists s | done].
  - destruct s as [|b s]; simpl.
    + split; [done | intros [post Hp]; discriminate].
    + rewrite andb_true_iff, bool_decide_eq_true, IH. split.
      * intros [-> [post ->]]. by exists post.
      * intros [post Hp]. injection Hp as -> ->. eauto.
Qed.

Lemma includes_spec s t : includes s t = true ↔ contains s t.
Proof.
  unfold contains. induction s as [|c s IH]; simpl.
  - rewrite orb_false_r, starts_with_spec. split.
    + intros [post Hp]. by exists "", post.
    + intros [pre [post Hp]]. destruct pre; [by exists post | discriminate].
  - rewrite orb_true_iff, starts_with_spec, IH. split.
    + intros [[post Hp] | [pre [post Hp]]].
      * by exists "", post.
      * exists (String c pre), post. simpl. by rewrite Hp.
    + intros [pre [post Hp]]. destruct pre as [|c' pre]; simpl in Hp.
      * left. by exists post.
      * right. injection Hp as -> Hp. by exists pre, post.
Qed.

Lemma includes_false s t : includes s t = false ↔ ¬ contains s t.
Proof. rewrite <- includes_spec. by destruct (includes s t). Qed.

(** ** Well-formed node lists *)

Lemma parents_resolve_spec d :
  parents_resolve d = true →
  ∀ n p, n ∈ d → parent n = Some p → ∃ m, m ∈ d ∧ key m = p ∧ m ≠ n.
Proof.
  unfold parents_resolve. rewrite forallb_forall.
  intros Hall n p Hn Hp. apply list_elem_of_In, Hall in Hn.
  unfold parent_resolves in Hn. rewrite Hp in Hn.
  apply andb_true_iff in Hn as [Hin Hne].
  apply bool_decide_eq_true in Hin, Hne.
  unfold keys in Hin. apply list_elem_of_fmap in Hin as [m [-> Hm]].
  exists m. repeat split; [done|]. by intros ->.
Qed.

Lemma well_formed_spec d :
  well_formed d = true →
  NoDup (keys d) ∧ (∃ r, roots d = [r]) ∧
  (∀ n p, n ∈ d → parent n = Some p → ∃ m, m ∈ d ∧ key m = p ∧ m ≠ n).
Proof.
  unfold well_formed, unique_keys. rewrite !andb_true_iff, !bool_decide_eq_true.
  intros [[Hk Hr] Hp]. split; [done|]. split.
  - destruct (roots d) as [|r [|r' l]]; try discriminate. by exists r.
  - by apply parents_resolve_spec.
Qed.

Lemma fixtures_well_formed d : d ∈ all_fixtures → well_formed d = true.
Proof.
  unfold all_fixtures. rewrite !elem_of_cons, elem_of_nil.
  intros [->|[->|[->|[->|[->|[->|[]]]]]]]; vm_compute; reflexivity.
Qed.

Lemma generic_well_formed incident level :
  well_formed (generateGenericData incident level) = true.
Proof.
  destruct (generic_cases incident level) as [-> | [-> | ->]];
    vm_compute; reflexivity.
Qed.

(** ** The generic generator: shape of the result *)

Example sub_cause_1_1_is_a_leaf :
  named "Sub-cause 1.1" (generateGenericData "Forklift collision" 3)
    = [child_node 102 2 "Sub-cause 1.1"] ∧
  children 102 (generateGenericData "Forklift collision" 3) = [] ∧
  named "Sub-cause 1.2" (generateGenericData "Forklift collision" 3)
    = [child_node 202 2 "Sub-cause 1.2"] ∧
  sole_child_named "Sub-cause 1.1" "Sub-cause 1.2"
    (generateGenericData "Forklift collision" 3) = false ∧
  hangs_under "Sub-cause 1.1" "Sub-cause 1.2"
    (generateGenericData "Forklift collision" 3) = false ∧
  sole_child_named "Secondary Effect 1.1" "Long-term Effect 1.1"
    (generateGenericData "Forklift collision" 3) = false ∧
  hangs_under "Secondary Effect 1.1" "Long-term Effect 1.1"
    (generateGenericData "Forklift collision" 3) = false.
Proof. repeat split; vm_compute; reflexivity. Qed.

(** C1, as stated, fails: at level 3 the node "Sub-cause 1.1" (key 102) has
    no child at all, and "Sub-cause 1.2" has parent 2, the key of the cause
    node, not 102. *)
Lemma third_level_not_nested :
  third_level_nested (generateGenericData "Forklift collision" 3) = false.
Proof. vm_compute. reflexivity. Qed.

(** C1, amended: for every incident and every level of at least 3, the
    nodes added at the third level are siblings of the second-level ones.
    For both branches [i], the cause node (key [i+1]) has exactly the
    children "Sub-cause i.1" (key [i+101]) and "Sub-cause i.2" (key
    [i+201]), the effect node (key [i+3]) has exactly the children
    "Secondary Effect i.1" (key [i+303]) and "Long-term Effect i.1" (key
    [i+403]), and the second-level nodes have no children. *)
Theorem third_level_nodes_are_siblings (incident : string) (level i : Z) :
  3 ≤ level →
  i = 1 ∨ i = 2 →
  children (i + 1) (generateGenericData incident level)
    = [child_node (i + 101) (i + 1) ("Sub-cause " +:+ pretty i +:+ ".1");
       child_node (i + 201) (i + 1) ("Sub-cause " +:+ pretty i +:+ ".2")] ∧
  children (i + 3) (generateGenericData incident level)
    = [child_node (i + 303) (i + 3) ("Secondary Effect " +:+ pretty i +:+ ".1");
       child_node (i + 403) (i + 3) ("Long-term Effect " +:+ pretty i +:+ ".1")] ∧
  children (i + 101) (generateGenericData incident level) = [] ∧
  children (i + 303) (generateGenericData incident level) = [].
Proof.
  intros Hl Hi. rewrite (generic_from_3 incident level Hl).
  destruct Hi as [-> | ->]; repeat split; vm_compute; reflexivity.
Qed.

Lemma third_level_nodes_are_siblings_witness :
  children 2 (generateGenericData "Forklift collision" 5)
    = [child_node 102 2 "Sub-cause 1.1"; child_node 202 2 "Sub-cause 1.2"].
Proof.
  apply (third_level_nodes_are_siblings "Forklift collision" 5 1); [lia | by left].
Defined.

(** C2: the generator returns 5, 9 and 13 nodes at levels 1, 2 and 3; at
    every level the one root is the node with key 1 named by the incident
    text, and the root's children are, in order, the causes labelled by the
    first two entries of [causes] and the effects labelled by the first two
    entries of [effects], with keys 2 to 5. *)
Theorem generic_counts_and_first_level (incident : string) (level : Z) :
  length (generateGenericData incident 1) = 5%nat ∧
  length (generateGenericData incident 2) = 9%nat ∧
  length (generateGenericData incident 3) = 13%nat ∧
  roots (generateGenericData incident level) = [root_node 1 incident] ∧
  children 1 (generateGenericData incident level)
    = [child_node 2 1 ("Cause: " +:+ label causes 0);
       child_node 3 1 ("Cause: " +:+ label causes 1);
       child_node 4 1 ("Effect: " +:+ label effects 0);
       child_node 5 1 ("Effect: " +:+ label effects 1)] ∧
  map name (children 1 (generateGenericData incident level))
    = (map (String.app "Cause: ") (take 2 causes) ++
       map (String.app "Effect: ") (take 2 effects))%list ∧
  length (filter (λ n, starts_with "Cause: " (name n) = true)
            (children 1 (generateGenericData incident level))) = 2%nat ∧
  length (filter (λ n, starts_with "Effect: " (name n) = true)
            (children 1 (generateGenericData incident level))) = 2%nat.
Proof.
  rewrite generic_shallow_eq, generic_middle_eq, generic_deep_eq.
  do 3 (split; [reflexivity|]).
  destruct (generic_cases incident level) as [-> | [-> | ->]];
    repeat split; vm_compute; reflexivity.
Qed.

(** ** The mock provider *)

Section ProviderTheorems.
Context {js : Builtins}.

Lemma incidentType_fire incident :
  contains (toLowerCase incident) "fire" → incidentType incident = "fire".
Proof.
  intros Hf. apply includes_spec in Hf. unfold incidentType. by rewrite Hf.
Qed.

Lemma incidentType_slip incident :
  ¬ contains (toLowerCase incident) "fire" →
  contains (toLowerCase incident) "slip" →
  incidentType incident = "slip".
Proof.
  intros Hf Hs. apply includes_false in Hf. apply includes_spec in Hs.
  unfold incidentType. by rewrite Hf, Hs.
Qed.

Lemma incidentType_generic incident :
  ¬ contains (toLowerCase incident) "fire" →
  ¬ contains (toLowerCase incident) "slip" →
  incidentType incident = "generic".
Proof.
  intros Hf Hs. apply includes_false in Hf, Hs.
  unfold incidentType. by rewrite Hf, Hs.
Qed.

(** C3: for an incident classified as fire or slip and a level among 1, 2
    and 3, the provider returns the entry of [mockDataMap] under the key
    "<category>-<level>" as it stands; that entry has 3, 7 and 11 nodes
    at levels 1, 2 and 3, one root, and each parent reference is the key
    of another node of the entry. *)
Theorem fixture_returned (incident : string) (level : Z) :
  incidentType incident = "fire" ∨ incidentType incident = "slip" →
  1 ≤ level ≤ 3 →
  ∃ fx,
    mockDataMap !! (incidentType incident +:+ "-" +:+ pretty level) = Some fx ∧
    fakeApiCall incident level = fx ∧
    (level = 1 → length fx = 3%nat) ∧
    (level = 2 → length fx = 7%nat) ∧
    (level = 3 → length fx = 11%nat) ∧
    length (roots fx) = 1%nat ∧
    (∀ n p, n ∈ fx → parent n = Some p →
            ∃ m, m ∈ fx ∧ key m = p ∧ m ≠ n).
Proof.
  intros Hc Hl. unfold fakeApiCall, lookupKey.
  assert (∃ fx, mockDataMap !! (incidentType incident +:+ "-" +:+ pretty level)
                  = Some fx ∧ fx ∈ all_fixtures ∧
                Z.of_nat (length fx) = 4 * level - 1) as (fx & Hfx & Hin & Hlen).
  { apply level_in_range in Hl.
    destruct Hc as [-> | ->]; destruct Hl as [-> | [-> | ->]];
      eexists; (split; [vm_compute; reflexivity|]);
      (split; [|reflexivity]); unfold all_fixtures; set_solver. }
  exists fx. rewrite Hfx. split; [done|]. split; [done|].
  apply fixtures_well_formed, well_formed_spec in Hin as (_ & [r Hr] & Hp).
  repeat split; try (intros; lia); [by rewrite Hr | done].
Qed.

(** C4: whatever the incident and the integer level, the list the
    provider returns has pairwise distinct keys, exactly one node without
    a parent, and every parent that is present is the key of a node of
    the list. *)
Theorem provider_lists_well_formed (incident : string) (level : Z) :
  NoDup (keys (fakeApiCall incident level)) ∧
  (∃ r, roots (fakeApiCall incident level) = [r]) ∧
  (∀ n p, n ∈ fakeApiCall incident level → parent n = Some p →
          ∃ m, m ∈ fakeApiCall incident level ∧ key m = p).
Proof.
  assert (well_formed (fakeApiCall incident level) = true) as Hwf.
  { destruct (fakeApiCall_cases incident level) as [Hfx | ->].
    - by apply fixtures_well_formed.
    - apply generic_well_formed. }
  apply well_formed_spec in Hwf as (Hk & Hr & Hp).
  split; [done|]. split; [done|].
  intros n p Hn Hpar. destruct (Hp n p Hn Hpar) as (m & Hm & Hkey & _). eauto.
Qed.

(** C5: the generator treats every level up to 0 as level 1 and every
    level from 4 on as level 3; and for an incident classified as fire or
    slip, a level outside 1, 2, 3 finds no fixture, so the provider
    returns the generator's output. *)
Theorem out_of_range_levels (incident : string) (level : Z) :
  (level ≤ 0 →
     generateGenericData incident level = generateGenericData incident 1) ∧
  (4 ≤ level →
     generateGenericData incident level = generateGenericData incident 3) ∧
  (incidentType incident = "fire" ∨ incidentType incident = "slip" →
   level ≤ 0 ∨ 4 ≤ level →
     mockDataMap !! lookupKey incident level = None ∧
     fakeApiCall incident level = generateGenericData incident level).
Proof.
  split; [|split].
  - intros Hl. apply generic_same_side, same_side_below. lia.
  - intros Hl. apply generic_same_side, same_side_above. lia.
  - intros _ Hl. apply fakeApiCall_falls_through. left. lia.
Qed.

(** C6: an incident whose lower-cased text contains "fire" is of category
    "fire"; otherwise, if it contains "slip", of category "slip";
    otherwise "generic"; and the lookup key is the category, a hyphen and
    the level in decimal. *)
Theorem classification_by_substring (incident : string) (level : Z) :
  (contains (toLowerCase incident) "fire" →
     incidentType incident = "fire") ∧
  (¬ contains (toLowerCase incident) "fire" →
   contains (toLowerCase incident) "slip" →
     incidentType incident = "slip") ∧
  (¬ contains (toLowerCase incident) "fire" →
   ¬ contains (toLowerCase incident) "slip" →
     incidentType incident = "generic") ∧
  lookupKey incident level = incidentType incident +:+ "-" +:+ pretty level ∧
  fakeApiCall incident level =
    default (generateGenericData incident level)
            (mockDataMap !! lookupKey incident level).
Proof.
  split; [apply incidentType_fire|].
  split; [apply incidentType_slip|].
  split; [apply incidentType_generic|].
  split; [reflexivity|].
  unfold fakeApiCall. by destruct (mockDataMap !! lookupKey incident level).
Qed.

(** C9: when the lower-cased incident contains both "fire" and "slip",
    the category is "fire", the lookup key starts with "fire-", and no
    slip fixture is returned at any level. *)
Theorem fire_takes_precedence (incident : string) (level : Z) :
  contains (toLowerCase incident) "fire" →
  contains (toLowerCase incident) "slip" →
  incidentType incident = "fire" ∧
  lookupKey incident level = "fire-" +:+ pretty level ∧
  fakeApiCall incident level
    ∉ [Fixtures.slip_1; Fixtures.slip_2; Fixtures.slip_3].
Proof.
  intros Hf _. apply incidentType_fire in Hf.
  split; [done|]. split; [unfold lookupKey; by rewrite Hf|].
  rewrite !not_elem_of_cons.
  destruct (decide (1 ≤ level ≤ 3)) as [Hin|Hout].
  - unfold fakeApiCall, lookupKey. rewrite Hf.
    apply level_in_range in Hin as [-> | [-> | ->]];
      vm_compute; repeat split; try discriminate; apply not_elem_of_nil.
  - destruct (fakeApiCall_falls_through incident level) as [_ ->]; [by left|].
    destruct (generic_cases incident level) as [-> | [-> | ->]];
      repeat split; try apply not_elem_of_nil;
      intros Heq; apply (f_equal length) in Heq; discriminate.
Qed.

End ProviderTheorems.

(** ** The controller *)

Section ControllerTheorems.
Context {js : Builtins}.

(** The guard of [generateDiagram]: with an empty incident or a level
    that is [null] or [NaN] the method only alerts. *)
Lemma generateDiagram_guard (s : App) :
  incident s = "" ∨ checked_level (level s) = None →
  generateDiagram_begin s
    = (s, [Alert "Please fill in both Incident and Level"], None).
Proof.
  intros Hbad. unfold generateDiagram_begin.
  destruct Hbad as [Hi | Hl].
  - by rewrite (bool_decide_eq_true_2 _ Hi).
  - rewrite Hl. by destruct (bool_decide (incident s = "")).
Qed.

(** Past the guard the request is made with the integer level. *)
Lemma generateDiagram_proceeds (s : App) (lvl : Z) :
  incident s ≠ "" → level s = Some (Int lvl) →
  generateDiagram_begin s
    = (mkApp (incident s) (level s) (diagramInitialized s) true (model s)
             Block Hidden true,
       [ApiCall (incident s) lvl],
       Some (fakeApiCall (incident s) lvl)).
Proof.
  intros Hi Hl. unfold generateDiagram_begin.
  by rewrite (bool_decide_eq_false_2 _ Hi), Hl.
Qed.

(** C7: a submission whose incident is empty once trimmed, or whose level
    does not parse as a number, makes [generateDiagram] alert and return:
    the method leaves the state it was called on as it is, no request to
    the provider is made or left pending, and the loading flag, the
    diagram model, [diagramInitialized], the spinner, the chart section
    and the export button are as before the submission. *)
Theorem invalid_submission_rejected
    (incidentInput levelInput : string) (sys : System) :
  trim incidentInput = "" ∨ parseInt levelInput = NaN →
  ∃ s',
    generateDiagram_begin s'
      = (s', [Alert "Please fill in both Incident and Level"], None) ∧
    step (Submit incidentInput levelInput) sys
      = (mkSystem s' (inflight sys),
         [Alert "Please fill in both Incident and Level"]) ∧
    isLoading s' = isLoading (app sys) ∧
    model s' = model (app sys) ∧
    diagramInitialized s' = diagramInitialized (app sys) ∧
    spinner s' = spinner (app sys) ∧
    chart s' = chart (app sys) ∧
    exportDisabled s' = exportDisabled (app sys).
Proof.
  intros Hbad.
  set (s' := mkApp (trim incidentInput) (Some (parseInt levelInput))
               (diagramInitialized (app sys)) (isLoading (app sys))
               (model (app sys)) (spinner (app sys)) (chart (app sys))
               (exportDisabled (app sys))).
  assert (generateDiagram_begin s'
            = (s', [Alert "Please fill in both Incident and Level"], None))
    as Hguard.
  { apply generateDiagram_guard. simpl.
    destruct Hbad as [Hi | Hl]; [by left | right; by rewrite Hl]. }
  exists s'. split; [done|]. split; [|done].
  unfold step, onSubmit. simpl. fold s'. rewrite Hguard. simpl.
  by rewrite app_nil_r.
Qed.

(** C8: with [diagramInitialized] false, [printDiagram] only shows the
    message and changes nothing: no SVG is made, no object URL is
    created and no window is opened. *)
Theorem export_requires_generation (svg_ok win_ok : bool) (s : App) :
  diagramInitialized s = false →
  printDiagram svg_ok win_ok s
    = (s, [Alert "Please generate a diagram first"]) ∧
  (MakeSvg ∉ snd (printDiagram svg_ok win_ok s)) ∧
  (CreateObjectURL ∉ snd (printDiagram svg_ok win_ok s)) ∧
  (WindowOpen ∉ snd (printDiagram svg_ok win_ok s)).
Proof.
  intros Hflag. unfold printDiagram. rewrite Hflag. simpl.
  repeat split; rewrite list_elem_of_singleton; discriminate.
Qed.

(** A submission does not touch the flag, nor does an export. *)
Lemma onSubmit_flag (i l : string) (s : App) :
  diagramInitialized (fst (fst (onSubmit i l s))) = diagramInitialized s.
Proof.
  unfold onSubmit, generateDiagram_begin. simpl.
  destruct (bool_decide (trim i = "")); [done|].
  by destruct (parseInt l).
Qed.

Lemma printDiagram_state (svg_ok win_ok : bool) (s : App) :
  fst (printDiagram svg_ok win_ok s) = s.
Proof.
  unfold printDiagram.
  by destruct (diagramInitialized s), svg_ok, win_ok.
Qed.

Lemma step_flag (e : Event) (sys : System) :
  diagramInitialized (app (fst (step e sys))) =
    match e, inflight sys with
    | Settle Completes, _ :: _ => true
    | _, _ => diagramInitialized (app sys)
    end.
Proof.
  destruct e as [i l | o | svg_ok win_ok]; simpl.
  - rewrite <- (onSubmit_flag i l (app sys)).
    by destruct (onSubmit i l (app sys)) as [[s fx] req].
  - by destruct o, (inflight sys).
  - rewrite <- (printDiagram_state svg_ok win_ok (app sys)) at 2.
    by destruct (printDiagram svg_ok win_ok (app sys)).
Qed.

(** The flag is only ever set by a request that completes. *)
Lemma step_keeps_flag_false (e : Event) (sys : System) :
  e ≠ Settle Completes →
  diagramInitialized (app sys) = false →
  diagramInitialized (app (fst (step e sys))) = false.
Proof.
  intros He Hflag. rewrite step_flag.
  by destruct e as [i l | [|] | svg_ok win_ok].
Qed.

Lemma run_keeps_flag_false (es : list Event) (sys : System) :
  Settle Completes ∉ es →
  diagramInitialized (app sys) = false →
  diagramInitialized (app (fst (run es sys))) = false.
Proof.
  revert sys. induction es as [|e es IH]; intros sys Hes Hflag; [done|].
  apply not_elem_of_cons in Hes as [He Hes]. simpl.
  destruct (step e sys) as [sys1 fx1] eqn:Hstep.
  destruct (run es sys1) as [sys2 fx2] eqn:Hrun. simpl.
  replace sys2 with (fst (run es sys1)) by (by rewrite Hrun).
  apply IH; [done|]. replace sys1 with (fst (step e sys)) by (by rewrite Hstep).
  apply step_keeps_flag_false; [congruence | done].
Qed.

Lemma step_keeps_flag_true (e : Event) (sys : System) :
  diagramInitialized (app sys) = true →
  diagramInitialized (app (fst (step e sys))) = true.
Proof.
  intros Hflag. rewrite step_flag.
  destruct e as [i l | [|] | svg_ok win_ok]; try done.
  by destruct (inflight sys).
Qed.

Lemma run_keeps_flag_true (es : list Event) (sys : System) :
  diagramInitialized (app sys) = true →
  diagramInitialized (app (fst (run es sys))) = true.
Proof.
  revert sys. induction es as [|e es IH]; intros sys Hflag; [done|].
  simpl. pose proof (step_keeps_flag_true e sys Hflag) as Hstep.
  destruct (step e sys) as [sys1 fx1]. simpl in Hstep.
  specialize (IH sys1 Hstep).
  by destruct (run es sys1) as [sys2 fx2].
Qed.

(** C10: once [diagramInitialized] is true it stays true along every
    sequence of submissions, settled requests and exports; in
    particular, after a valid submission whose request then fails, the
    chart section is hidden and the export button disabled, yet
    [printDiagram] passes its guard and goes on to make the SVG. *)
Theorem diagramInitialized_monotone (sys : System) :
  diagramInitialized (app sys) = true →
  (∀ es, diagramInitialized (app (fst (run es sys))) = true) ∧
  (∀ incidentInput levelInput lvl svg_ok win_ok,
     inflight sys = [] →
     trim incidentInput ≠ "" →
     parseInt levelInput = Int lvl →
     let after := app (fst (run [Submit incidentInput levelInput; Settle Throws] sys)) in
     diagramInitialized after = true ∧
     chart after = Hidden ∧
     exportDisabled after = true ∧
     head (snd (printDiagram svg_ok win_ok after)) = Some MakeSvg).
Proof.
  intros Hflag. split; [intros es; by apply run_keeps_flag_true|].
  intros i l lvl svg_ok win_ok Hq Hi Hl. simpl.
  unfold onSubmit. rewrite (generateDiagram_proceeds _ lvl); simpl; [|done|by rewrite Hl].
  rewrite Hq. simpl. rewrite Hflag.
  repeat split. unfold printDiagram. simpl.
  by destruct svg_ok, win_ok.
Qed.

End ControllerTheorems.

(** * Further properties of the generator and the provider *)

Lemma within_two_levels_spec d :
  within_two_levels d = true →
  ∀ n p, n ∈ d → parent n = Some p →
    (∃ r, r ∈ d ∧ key r = p ∧ parent r = None) ∨
    (∃ m r, m ∈ d ∧ r ∈ d ∧ key m = p ∧
            parent m = Some (key r) ∧ parent r = None).
Proof.
  assert (∀ k, is_root_key d k = true →
               ∃ r, r ∈ d ∧ key r = k ∧ parent r = None) as Hroot.
  { intros k Hk. apply existsb_exists in Hk as (r & Hr & Hk).
    apply andb_true_iff in Hk as [Hkey Hpar].
    apply bool_decide_eq_true in Hkey, Hpar.
    exists r. by rewrite list_elem_of_In. }
  unfold within_two_levels. rewrite forallb_forall.
  intros Hall n p Hn Hp. apply list_elem_of_In, Hall in Hn.
  rewrite Hp in Hn. apply orb_true_iff in Hn as [Hn | Hn].
  - left. by apply Hroot.
  - right. apply existsb_exists in Hn as (m & Hm & Hn).
    apply andb_true_iff in Hn as [Hkey Hq].
    apply bool_decide_eq_true in Hkey.
    destruct (parent m) as [q|] eqn:Hpm; [|discriminate].
    apply Hroot in Hq as (r & Hr & <- & Hpr).
    exists m, r. by rewrite list_elem_of_In.
Qed.

Lemma fixtures_within_two_levels d :
  d ∈ all_fixtures → within_two_levels d = true.
Proof.
  unfold all_fixtures. rewrite !elem_of_cons, elem_of_nil.
  intros [->|[->|[->|[->|[->|[->|[]]]]]]]; vm_compute; reflexivity.
Qed.

Lemma generic_within_two_levels incident level :
  within_two_levels (generateGenericData incident level) = true.
Proof.
  destruct (generic_cases incident level) as [-> | [-> | ->]];
    vm_compute; reflexivity.
Qed.

Ltac pick_sublist :=
  repeat first [ apply sublist_nil_l | apply sublist_skip | apply sublist_cons ].

Lemma shallow_in_middle incident :
  generic_shallow incident `sublist_of` generic_middle incident.
Proof. unfold generic_shallow, generic_middle. pick_sublist. Qed.

Lemma middle_in_deep incident :
  generic_middle incident `sublist_of` generic_deep incident.
Proof. unfold generic_middle, generic_deep. pick_sublist. Qed.

(** X2: raising the level only adds nodes: the list for a level is
    obtained from the list for any higher level by leaving nodes out, the
    others keeping their order; and it has between 5 and 13 nodes. *)
Theorem generic_grows_with_level (incident : string) (level level' : Z) :
  level ≤ level' →
  generateGenericData incident level
    `sublist_of` generateGenericData incident level' ∧
  (5 ≤ length (generateGenericData incident level) ≤ 13)%nat.
Proof.
  intros Hle. split.
  - destruct (Z_lt_le_dec level' 2) as [Hlo'|Hge'].
    { rewrite (generic_below_2 incident level) by lia.
      by rewrite (generic_below_2 incident level' Hlo'). }
    destruct (Z_lt_le_dec level' 3) as [Hmid'|Hhi'].
    { rewrite (generic_at_2 incident level') by lia.
      destruct (Z_lt_le_dec level 2) as [Hlo|Hge].
      - rewrite (generic_below_2 incident level Hlo). apply shallow_in_middle.
      - by rewrite (generic_at_2 incident level) by lia. }
    rewrite (generic_from_3 incident level' Hhi').
    destruct (generic_cases incident level) as [-> | [-> | ->]].
    + etrans; [apply shallow_in_middle | apply middle_in_deep].
    + apply middle_in_deep.
    + done.
  - destruct (generic_cases incident level) as [-> | [-> | ->]]; simpl; lia.
Qed.

(** X3: the incident text enters the generated list only as the name of
    the first node, the root; the rest of the list is the same for every
    incident. *)
Theorem generic_incident_only_in_root (incident incident' : string) (level : Z) :
  generateGenericData incident level
    = root_node 1 incident :: tail (generateGenericData incident' level).
Proof.
  destruct (Z_lt_le_dec level 2) as [Hlo|Hge].
  - by rewrite !(generic_below_2 _ level Hlo).
  - destruct (Z_lt_le_dec level 3) as [Hmid|Hhi].
    + by rewrite !(generic_at_2 _ level) by lia.
    + by rewrite !(generic_from_3 _ level Hhi).
Qed.

(** X4: at every integer level each of the four cause and effect nodes
    (keys 2 to 5) has the same number of children: none below level 2, one
    at level 2, two from level 3 on. *)
Theorem generic_fanout (incident : string) (level k : Z) :
  2 ≤ k ≤ 5 →
  length (children k (generateGenericData incident level)) = fanout level.
Proof.
  intros Hk.
  assert (k = 2 ∨ k = 3 ∨ k = 4 ∨ k = 5) as Hcases by lia.
  destruct (Z_lt_le_dec level 2) as [Hlo|Hge].
  - rewrite (generic_below_2 incident level Hlo).
    replace (fanout level) with 0%nat by (unfold fanout; lia).
    destruct Hcases as [->|[->|[->| ->]]]; reflexivity.
  - destruct (Z_lt_le_dec level 3) as [Hmid|Hhi].
    + rewrite (generic_at_2 incident level) by lia.
      replace (fanout level) with 1%nat by (unfold fanout; lia).
      destruct Hcases as [->|[->|[->| ->]]]; reflexivity.
    + rewrite (generic_from_3 incident level Hhi).
      replace (fanout level) with 2%nat by (unfold fanout; lia).
      destruct Hcases as [->|[->|[->| ->]]]; reflexivity.
Qed.

(** X5: every generated node follows the key allocation: the root has key
    1; a child of the root has a key from 2 to 5; a node whose parent is a
    cause (key 2 or 3) has that key plus 100 or plus 200; a node whose
    parent is an effect (key 4 or 5) has that key plus 300 or plus 400. *)
Theorem generic_key_scheme (incident : string) (level : Z) (n : TreeNodeData) :
  n ∈ generateGenericData incident level →
  match parent n with
  | None => key n = 1
  | Some p =>
      (p = 1 ∧ 2 ≤ key n ≤ 5) ∨
      (2 ≤ p ≤ 3 ∧ (key n = p + 100 ∨ key n = p + 200)) ∨
      (4 ≤ p ≤ 5 ∧ (key n = p + 300 ∨ key n = p + 400))
  end.
Proof.
  intros Hn.
  assert (forallb follows_key_scheme (generateGenericData incident level) = true)
    as Hall.
  { destruct (generic_cases incident level) as [-> | [-> | ->]];
      vm_compute; reflexivity. }
  rewrite forallb_forall in Hall. apply list_elem_of_In, Hall in Hn.
  unfold follows_key_scheme in Hn. destruct (parent n) as [p|]; [|lia].
  rewrite !orb_true_iff, !andb_true_iff, !orb_true_iff in Hn. lia.
Qed.

Lemma lookup_in_range (category : string) (level : Z) :
  category = "fire" ∨ category = "slip" →
  1 ≤ level ≤ 3 →
  ∃ fx, mockDataMap !! (category +:+ "-" +:+ pretty level) = Some fx ∧
        roots fx = [root_node 1 (fixture_title category)].
Proof.
  intros Hc Hl. apply level_in_range in Hl.
  destruct Hc as [-> | ->]; destruct Hl as [-> | [-> | ->]];
    eexists; (split; [vm_compute; reflexivity | reflexivity]).
Qed.

Section ProviderExtras.
Context {js : Builtins}.

Lemma fakeApiCall_well_formed (incident : string) (level : Z) :
  well_formed (fakeApiCall incident level) = true.
Proof.
  destruct (fakeApiCall_cases incident level) as [Hfx | ->].
  - by apply fixtures_well_formed.
  - apply generic_well_formed.
Qed.

(** X1: whatever the incident and the level, the tree the provider returns
    is at most two levels deep: the parent of a node is the root, or a
    child of the root. *)
Theorem provider_trees_two_levels_deep
    (incident : string) (level : Z) (n : TreeNodeData) (p : Z) :
  n ∈ fakeApiCall incident level →
  parent n = Some p →
  (∃ r, r ∈ fakeApiCall incident level ∧ key r = p ∧ parent r = None) ∨
  (∃ m r, m ∈ fakeApiCall incident level ∧ r ∈ fakeApiCall incident level ∧
          key m = p ∧ parent m = Some (key r) ∧ parent r = None).
Proof.
  apply within_two_levels_spec.
  destruct (fakeApiCall_cases incident level) as [Hfx | ->].
  - by apply fixtures_within_two_levels.
  - apply generic_within_two_levels.
Qed.

(** X6: every node the provider returns has a key between 1 and 405, and,
    unless the incident text is empty, a non-empty name; with an empty
    incident that finds no fixture the root's name is empty. *)
Theorem provider_keys_and_names (incident : string) (level : Z) :
  (∀ n, n ∈ fakeApiCall incident level →
        1 ≤ key n ≤ 405 ∧ (incident ≠ "" → name n ≠ "")) ∧
  (incident = "" → incidentType incident = "generic" →
   ∃ r, r ∈ fakeApiCall incident level ∧ name r = "").
Proof.
  split.
  - intros n Hn.
    destruct (fakeApiCall_cases incident level) as [Hfx | Heq].
    + revert Hn. generalize (fakeApiCall incident level) Hfx. clear.
      intros d Hd. unfold all_fixtures in Hd.
      rewrite !elem_of_cons, elem_of_nil in Hd.
      destruct Hd as [->|[->|[->|[->|[->|[->|[]]]]]]];
        unfold Fixtures.fire_1, Fixtures.fire_2, Fixtures.fire_3,
               Fixtures.slip_1, Fixtures.slip_2, Fixtures.slip_3;
        rewrite !elem_of_cons, elem_of_nil;
        intros Hn; repeat (destruct Hn as [-> | Hn]); try done;
        (split; [simpl; lia | discriminate]).
    + rewrite Heq in Hn.
      destruct (generic_cases incident level) as [E | [E | E]];
        rewrite E in Hn;
        unfold generic_shallow, generic_middle, generic_deep in Hn;
        rewrite !elem_of_cons, elem_of_nil in Hn;
        repeat (destruct Hn as [-> | Hn]); try done;
        (split; [simpl; lia | simpl; first [done | discriminate]]).
  - intros Hi Hg.
    destruct (fakeApiCall_falls_through incident level) as [_ ->]; [by right|].
    exists (root_node 1 incident). split; [|done].
    rewrite (generic_incident_only_in_root incident incident level).
    apply elem_of_cons. by left.
Qed.

(** X7: when a fixture answers (category fire or slip, level 1 to 3), the
    incident text plays no further part: two incidents of the same
    category get the same list, and its root is named "Fire Incident" or
    "Slip Incident", not after the incident. *)
Theorem fixtures_ignore_incident_text (incident incident' : string) (level : Z) :
  incidentType incident = "fire" ∨ incidentType incident = "slip" →
  incidentType incident' = incidentType incident →
  1 ≤ level ≤ 3 →
  fakeApiCall incident level = fakeApiCall incident' level ∧
  roots (fakeApiCall incident level)
    = [root_node 1 (fixture_title (incidentType incident))].
Proof.
  intros Hc Hsame Hl. unfold fakeApiCall, lookupKey. rewrite Hsame.
  destruct (lookup_in_range (incidentType incident) level Hc Hl)
    as (fx & -> & Hroot).
  done.
Qed.

End ProviderExtras.

Lemma parents_first_from_spec seen d :
  parents_first_from seen d = true →
  ∀ i n p, d !! i = Some n → parent n = Some p →
    p ∈ seen ∨ ∃ j m, (j < i)%nat ∧ d !! j = Some m ∧ key m = p.
Proof.
  revert seen. induction d as [|a d IH]; intros seen Hpf i n p Hi Hp; [done|].
  simpl in Hpf. apply andb_true_iff in Hpf as [Ha Hrest].
  destruct i as [|i]; simpl in Hi.
  - injection Hi as ->. rewrite Hp in Ha. left. by apply bool_decide_eq_true in Ha.
  - destruct (IH _ Hrest i n p Hi Hp) as [Hseen | (j & m & Hj & Hm & Hk)].
    + apply elem_of_cons in Hseen as [-> | Hseen]; [|by left].
      right. exists 0%nat, a. split; [lia|]. by split.
    + right. exists (S j), m. split; [lia|]. by split.
Qed.

Lemma fixtures_parents_first d : d ∈ all_fixtures → parents_first d = true.
Proof.
  unfold all_fixtures. rewrite !elem_of_cons, elem_of_nil.
  intros [->|[->|[->|[->|[->|[->|[]]]]]]]; vm_compute; reflexivity.
Qed.

Lemma generic_parents_first incident level :
  parents_first (generateGenericData incident level) = true.
Proof.
  destruct (generic_cases incident level) as [-> | [-> | ->]];
    vm_compute; reflexivity.
Qed.

Section ProviderOrder.
Context {js : Builtins}.


(** X17: in every list the provider returns, a node comes after its
    parent: the parent key of the node at position [i] is the key of a
    node at an earlier position. *)
Theorem provider_lists_parents_first
    (incident : string) (level : Z) (i : nat) (n : TreeNodeData) (p : Z) :
  fakeApiCall incident level !! i = Some n →
  parent n = Some p →
  ∃ j m, (j < i)%nat ∧ fakeApiCall incident level !! j = Some m ∧ key m = p.
Proof.
  intros Hi Hp.
  assert (parents_first (fakeApiCall incident level) = true) as Hpf.
  { destruct (fakeApiCall_cases incident level) as [Hfx | ->].
    - by apply fixtures_parents_first.
    - apply generic_parents_first. }
  destruct (parents_first_from_spec [] _ Hpf i n p Hi Hp) as [Hseen | Hj];
    [by apply elem_of_nil in Hseen | done].
Qed.

(** X18: every list the provider returns starts with its root, whose key
    is 1, and has between 3 and 13 nodes. *)
Theorem provider_list_head_and_size (incident : string) (level : Z) :
  ∃ r rest,
    fakeApiCall incident level = r :: rest ∧
    key r = 1 ∧ parent r = None ∧
    (2 ≤ length rest ≤ 12)%nat.
Proof.
  destruct (fakeApiCall_cases incident level) as [Hfx | ->].
  - revert Hfx. generalize (fakeApiCall incident level). intros d.
    unfold all_fixtures. rewrite !elem_of_cons, elem_of_nil.
    intros [->|[->|[->|[->|[->|[->|[]]]]]]];
      eexists _, _; (split; [reflexivity|]); simpl; repeat split; lia.
  - destruct (generic_cases incident level) as [-> | [-> | ->]];
      eexists _, _; (split; [reflexivity|]); simpl; repeat split; lia.
Qed.

End ProviderOrder.

(** * Further properties of the controller *)

Section ControllerExtras.
Context {js : Builtins}.

(** What a valid submission does up to the [await]. *)
Lemma onSubmit_valid (incidentInput levelInput : string) (lvl : Z) (s : App) :
  trim incidentInput ≠ "" →
  parseInt levelInput = Int lvl →
  onSubmit incidentInput levelInput s
    = (mkApp (trim incidentInput) (Some (Int lvl)) (diagramInitialized s)
             true (model s) Block Hidden true,
       [ApiCall (trim incidentInput) lvl],
       Some (fakeApiCall (trim incidentInput) lvl)).
Proof.
  intros Hi Hl. unfold onSubmit.
  rewrite (generateDiagram_proceeds _ lvl); simpl; [|done|by rewrite Hl].
  by rewrite Hl.
Qed.

(** A submission never touches the node data of the diagram, and always
    stores the trimmed incident and the parsed level. *)
Lemma onSubmit_fields (incidentInput levelInput : string) (s : App) :
  model (fst (fst (onSubmit incidentInput levelInput s))) = model s ∧
  incident (fst (fst (onSubmit incidentInput levelInput s))) = trim incidentInput ∧
  level (fst (fst (onSubmit incidentInput levelInput s)))
    = Some (parseInt levelInput).
Proof.
  unfold onSubmit, generateDiagram_begin. simpl.
  destruct (bool_decide (trim incidentInput = "")); [done|].
  by destruct (parseInt levelInput).
Qed.

(** X8: the guard of [generateDiagram] lets a level of 0 or below through:
    the provider is called with it, no fixture answers, whatever the
    category, and the value awaited is the generator's level-1 list. *)
Theorem nonpositive_level_is_accepted
    (incidentInput levelInput : string) (lvl : Z) (s : App) :
  trim incidentInput ≠ "" →
  parseInt levelInput = Int lvl →
  lvl ≤ 0 →
  snd (fst (onSubmit incidentInput levelInput s))
    = [ApiCall (trim incidentInput) lvl] ∧
  snd (onSubmit incidentInput levelInput s)
    = Some (generateGenericData (trim incidentInput) 1) ∧
  length (generateGenericData (trim incidentInput) 1) = 5%nat.
Proof.
  intros Hi Hl Hneg. rewrite (onSubmit_valid _ _ lvl) by done. simpl.
  split; [done|].
  destruct (fakeApiCall_falls_through (trim incidentInput) lvl) as [_ ->];
    [left; lia|].
  rewrite (generic_same_side _ lvl 1) by (apply same_side_below; lia).
  split; [done|]. by rewrite ?generic_shallow_eq.
Qed.

(** X9: a valid submission whose request completes leaves a state that
    does not depend on the state before: the fields hold the trimmed
    incident and the parsed level, the diagram holds the provider's list
    for them, which is well formed, the chart shows, the export button is
    enabled, nothing is loading or awaited, and the only effect is the one
    call of the provider. *)
Theorem generation_round_trip
    (incidentInput levelInput : string) (lvl : Z) (sys : System) :
  inflight sys = [] →
  trim incidentInput ≠ "" →
  parseInt levelInput = Int lvl →
  run [Submit incidentInput levelInput; Settle Completes] sys
    = (mkSystem
         (mkApp (trim incidentInput) (Some (Int lvl)) true false
                (fakeApiCall (trim incidentInput) lvl) Hidden Block false)
         [],
       [ApiCall (trim incidentInput) lvl]) ∧
  well_formed (fakeApiCall (trim incidentInput) lvl) = true.
Proof.
  intros Hq Hi Hl. split; [|apply fakeApiCall_well_formed].
  simpl. rewrite (onSubmit_valid _ _ lvl) by done. by rewrite Hq.
Qed.

(** X15: a valid submission whose request fails keeps the node data and
    the [diagramInitialized] flag the component had, stores the fields of
    the failed submission, and leaves the chart hidden and the export
    button disabled, with nothing loading or awaited; its effects are the
    call of the provider, the alert and the console error, in this
    order. *)
Theorem failed_generation_round_trip
    (incidentInput levelInput : string) (lvl : Z) (sys : System) :
  inflight sys = [] →
  trim incidentInput ≠ "" →
  parseInt levelInput = Int lvl →
  run [Submit incidentInput levelInput; Settle Throws] sys
    = (mkSystem
         (mkApp (trim incidentInput) (Some (Int lvl))
                (diagramInitialized (app sys)) false (model (app sys))
                Hidden Hidden true)
         [],
       [ApiCall (trim incidentInput) lvl;
        Alert "Failed to load diagram data"; ConsoleError]).
Proof.
  intros Hq Hi Hl. simpl.
  rewrite (onSubmit_valid _ _ lvl) by done. by rewrite Hq.
Qed.

Lemma step_ui_consistent (e : Event) (sys : System) :
  ui_consistent (app sys) → ui_consistent (app (fst (step e sys))).
Proof.
  unfold ui_consistent. intros (Hload & Hidle & Hexp & Hnone).
  destruct e as [i l | o | svg_ok win_ok]; simpl.
  - unfold onSubmit, generateDiagram_begin. simpl.
    destruct (bool_decide (trim i = "")); [done|].
    destruct (parseInt l); simpl; [done|].
    repeat split; auto; discriminate.
  - destruct (inflight sys) as [|d rest]; [done|].
    destruct o; simpl; repeat split; auto; try discriminate;
      match goal with Hx : exportDisabled _ = false |- _ =>
        by destruct (Hexp Hx) end.
  - rewrite (surjective_pairing (printDiagram svg_ok win_ok (app sys))).
    simpl. by rewrite printDiagram_state.
Qed.

(** X10: the visible state stays coherent along every sequence of
    submissions, settled requests and exports, overlapping requests
    included: while [isLoading] holds the spinner shows, the chart is
    hidden and the export button is disabled; otherwise the spinner is
    hidden; an enabled export button means a diagram was generated and the
    chart shows; and before any generation the diagram has no nodes. *)
Theorem ui_stays_consistent (es : list Event) (sys : System) :
  ui_consistent (app sys) →
  ui_consistent (app (fst (run es sys))).
Proof.
  revert sys. induction es as [|e es IH]; intros sys Hok; [done|].
  simpl. pose proof (step_ui_consistent e sys Hok) as Hstep.
  destruct (step e sys) as [sys1 fx1]. simpl in Hstep.
  specialize (IH sys1 Hstep).
  by destruct (run es sys1) as [sys2 fx2].
Qed.

Lemma step_trees_ok (e : Event) (sys : System) :
  trees_ok sys → trees_ok (fst (step e sys)).
Proof.
  unfold trees_ok. intros [Hmodel Hq].
  destruct e as [i l | o | svg_ok win_ok]; simpl.
  - pose proof (onSubmit_fields i l (app sys)) as (Hm & _ & _).
    assert (Forall (λ d, well_formed d = true)
              (option_list (snd (onSubmit i l (app sys))))) as Hreq.
    { unfold onSubmit, generateDiagram_begin. simpl.
      destruct (bool_decide (trim i = "")); [constructor|].
      destruct (parseInt l); simpl; [constructor|].
      repeat constructor. apply fakeApiCall_well_formed. }
    destruct (onSubmit i l (app sys)) as [[s fx] req]. simpl in *.
    split; [by rewrite Hm | by apply Forall_app_2].
  - destruct (inflight sys) as [|d rest] eqn:Hin; simpl.
    { by rewrite Hin. }
    apply Forall_cons in Hq as [Hd Hrest].
    destruct o; simpl; split; auto.
  - rewrite (surjective_pairing (printDiagram svg_ok win_ok (app sys))).
    simpl. by rewrite printDiagram_state.
Qed.

(** X11: the diagram never receives a malformed tree: if the node data of
    the diagram and of the awaited requests are well formed (or the
    diagram is empty), they still are after any sequence of submissions,
    settled requests and exports. *)
Theorem diagram_trees_stay_well_formed (es : list Event) (sys : System) :
  trees_ok sys → trees_ok (fst (run es sys)).
Proof.
  revert sys. induction es as [|e es IH]; intros sys Hok; [done|].
  simpl. pose proof (step_trees_ok e sys Hok) as Hstep.
  destruct (step e sys) as [sys1 fx1]. simpl in Hstep.
  specialize (IH sys1 Hstep).
  by destruct (run es sys1) as [sys2 fx2].
Qed.

(** X12: submissions are not held back while a request is awaited.  After
    two valid submissions, when the first request completes the page
    shows the first tree under the fields of the second submission, with
    the loading flag off and the export button enabled although the
    second request is still awaited; when that one completes, its tree
    replaces the first. *)
Theorem overlapping_submissions
    (i1 l1 i2 l2 : string) (z1 z2 : Z) (sys : System) :
  inflight sys = [] →
  trim i1 ≠ "" → parseInt l1 = Int z1 →
  trim i2 ≠ "" → parseInt l2 = Int z2 →
  fst (run [Submit i1 l1; Submit i2 l2; Settle Completes] sys)
    = mkSystem
        (mkApp (trim i2) (Some (Int z2)) true false
               (fakeApiCall (trim i1) z1) Hidden Block false)
        [fakeApiCall (trim i2) z2] ∧
  fst (run [Submit i1 l1; Submit i2 l2; Settle Completes; Settle Completes] sys)
    = mkSystem
        (mkApp (trim i2) (Some (Int z2)) true false
               (fakeApiCall (trim i2) z2) Hidden Block false)
        [].
Proof.
  intros Hq Hi1 Hl1 Hi2 Hl2. simpl.
  rewrite (onSubmit_valid _ _ z1) by done. simpl.
  rewrite (onSubmit_valid _ _ z2) by done. simpl.
  by rewrite Hq.
Qed.

(** X13: the report that [printDiagram] writes is headed by the incident
    and level of the latest submission, accepted or not, while the
    diagram it shows is untouched by that submission. *)
Theorem report_header_follows_latest_submission
    (incidentInput levelInput : string) (sys : System) :
  diagramInitialized (app sys) = true →
  model (app (fst (step (Submit incidentInput levelInput) sys)))
    = model (app sys) ∧
  DocumentWrite (trim incidentInput) (Some (parseInt levelInput))
    ∈ snd (step (Export true true)
             (fst (step (Submit incidentInput levelInput) sys))).
Proof.
  intros Hflag.
  pose proof (onSubmit_fields incidentInput levelInput (app sys))
    as (Hm & Hi & Hl).
  pose proof (onSubmit_flag incidentInput levelInput (app sys)) as Hf.
  simpl. destruct (onSubmit incidentInput levelInput (app sys)) as [[s fx] req].
  simpl in *. split; [done|].
  unfold printDiagram. rewrite Hf, Hflag, Hi, Hl. simpl.
  rewrite !elem_of_cons. auto 10.
Qed.

(** X14: past its guard, [printDiagram] creates an object URL and opens a
    window exactly when [makeSvg] returned an element, and schedules the
    print (after 500 ms) and the release of the URL (after 30000 ms)
    exactly when, in addition, [window.open] returned a window; so with
    the window refused the URL is created and its release is never
    scheduled. *)
Theorem printDiagram_resources (svg_ok win_ok : bool) (s : App) :
  diagramInitialized s = true →
  (MakeSvg ∈ snd (printDiagram svg_ok win_ok s)) ∧
  (CreateObjectURL ∈ snd (printDiagram svg_ok win_ok s) ↔ svg_ok = true) ∧
  (WindowOpen ∈ snd (printDiagram svg_ok win_ok s) ↔ svg_ok = true) ∧
  (SetTimeout Print 500 ∈ snd (printDiagram svg_ok win_ok s)
     ↔ svg_ok = true ∧ win_ok = true) ∧
  (SetTimeout RevokeObjectURL 30000 ∈ snd (printDiagram svg_ok win_ok s)
     ↔ svg_ok = true ∧ win_ok = true) ∧
  (∀ a ms, SetTimeout a ms ∈ snd (printDiagram svg_ok win_ok s) →
           svg_ok = true ∧ win_ok = true) ∧
  fst (printDiagram svg_ok win_ok s) = s.
Proof.
  intros Hflag. unfold printDiagram. rewrite Hflag.
  destruct svg_ok, win_ok; simpl; repeat split; try done;
    try (rewrite ?elem_of_cons; by auto 12);
    try (by intros [? ?]); try intros Hin;
    repeat match goal with
    | Hin : _ ∈ _ :: _ |- _ => apply elem_of_cons in Hin as [Hin|Hin]; [discriminate|]
    | Hin : _ ∈ [] |- _ => by apply elem_of_nil in Hin
    end.
Qed.

End ControllerExtras.

(** ** The theorems at concrete inputs, with the ASCII built-ins *)

#[local] Existing Instance ascii_builtins.

Lemma fixture_returned_witness :
  (incidentType "Fire in warehouse" = "fire" ∨
   incidentType "Fire in warehouse" = "slip") ∧
  1 ≤ 2 ≤ 3 ∧
  ∃ fx,
    mockDataMap !! (incidentType "Fire in warehouse" +:+ "-" +:+ pretty 2) = Some fx ∧
    fakeApiCall "Fire in warehouse" 2 = fx ∧
    (2 = 1 → length fx = 3%nat) ∧
    (2 = 2 → length fx = 7%nat) ∧
    (2 = 3 → length fx = 11%nat) ∧
    length (roots fx) = 1%nat ∧
    (∀ n p, n ∈ fx → parent n = Some p → ∃ m, m ∈ fx ∧ key m = p ∧ m ≠ n).
Proof.
  split; [left; reflexivity|]. split; [lia|].
  apply (fixture_returned "Fire in warehouse" 2); [left; reflexivity | lia].
Defined.

Lemma out_of_range_levels_witness :
  (-4 ≤ 0 →
     generateGenericData "Slipped on ice" (-4)
       = generateGenericData "Slipped on ice" 1) ∧
  (4 ≤ -4 →
     generateGenericData "Slipped on ice" (-4)
       = generateGenericData "Slipped on ice" 3) ∧
  (incidentType "Slipped on ice" = "fire" ∨
   incidentType "Slipped on ice" = "slip" →
   -4 ≤ 0 ∨ 4 ≤ -4 →
     mockDataMap !! lookupKey "Slipped on ice" (-4) = None ∧
     fakeApiCall "Slipped on ice" (-4)
       = generateGenericData "Slipped on ice" (-4)).
Proof. apply (out_of_range_levels "Slipped on ice" (-4)). Defined.

Lemma classification_by_substring_witness :
  contains (toLowerCase "Small FIRE in bay 3") "fire" ∧
  incidentType "Small FIRE in bay 3" = "fire" ∧
  lookupKey "Small FIRE in bay 3" 2 = "fire-2".
Proof.
  assert (contains (toLowerCase "Small FIRE in bay 3") "fire") as Hf.
  { by exists "small ", " in bay 3". }
  split; [exact Hf|].
  destruct (classification_by_substring "Small FIRE in bay 3" 2)
    as (Hfire & _ & _ & Hkey & _).
  split; [exact (Hfire Hf)|].
  rewrite Hkey, (Hfire Hf). reflexivity.
Defined.

Lemma fire_takes_precedence_witness :
  contains (toLowerCase "Slipped while fighting a Fire") "fire" ∧
  contains (toLowerCase "Slipped while fighting a Fire") "slip" ∧
  incidentType "Slipped while fighting a Fire" = "fire" ∧
  lookupKey "Slipped while fighting a Fire" 3 = "fire-" +:+ pretty 3 ∧
  fakeApiCall "Slipped while fighting a Fire" 3
    ∉ [Fixtures.slip_1; Fixtures.slip_2; Fixtures.slip_3].
Proof.
  assert (contains (toLowerCase "Slipped while fighting a Fire") "fire") as Hf.
  { by exists "slipped while fighting a ", "". }
  assert (contains (toLowerCase "Slipped while fighting a Fire") "slip") as Hs.
  { by exists "", "ped while fighting a fire". }
  split; [exact Hf|]. split; [exact Hs|].
  exact (fire_takes_precedence "Slipped while fighting a Fire" 3 Hf Hs).
Defined.

Lemma provider_lists_well_formed_witness :
  NoDup (keys (fakeApiCall "Chemical spill" 7)) ∧
  (∃ r, roots (fakeApiCall "Chemical spill" 7) = [r]) ∧
  (∀ n p, n ∈ fakeApiCall "Chemical spill" 7 → parent n = Some p →
          ∃ m, m ∈ fakeApiCall "Chemical spill" 7 ∧ key m = p).
Proof. exact (provider_lists_well_formed "Chemical spill" 7). Defined.

Lemma invalid_submission_rejected_witness :
  (trim "   " = "" ∨ parseInt "2" = NaN) ∧
  ∃ s',
    generateDiagram_begin s'
      = (s', [Alert "Please fill in both Incident and Level"], None) ∧
    step (Submit "   " "2") generated_once
      = (mkSystem s' (inflight generated_once),
         [Alert "Please fill in both Incident and Level"]) ∧
    isLoading s' = isLoading (app generated_once) ∧
    model s' = model (app generated_once) ∧
    diagramInitialized s' = diagramInitialized (app generated_once) ∧
    spinner s' = spinner (app generated_once) ∧
    chart s' = chart (app generated_once) ∧
    exportDisabled s' = exportDisabled (app generated_once).
Proof.
  split; [left; reflexivity|].
  apply (invalid_submission_rejected "   " "2" generated_once).
  left; reflexivity.
Defined.

Lemma export_requires_generation_witness :
  diagramInitialized (init Unset true) = false ∧
  printDiagram true true (init Unset true)
    = (init Unset true, [Alert "Please generate a diagram first"]) ∧
  (MakeSvg ∉ snd (printDiagram true true (init Unset true))) ∧
  (CreateObjectURL ∉ snd (printDiagram true true (init Unset true))) ∧
  (WindowOpen ∉ snd (printDiagram true true (init Unset true))).
Proof.
  split; [reflexivity|].
  apply (export_requires_generation true true (init Unset true)). reflexivity.
Defined.

Lemma diagramInitialized_monotone_witness :
  diagramInitialized (app generated_once) = true ∧
  (∀ es, diagramInitialized (app (fst (run es generated_once))) = true) ∧
  (∀ incidentInput levelInput lvl svg_ok win_ok,
     inflight generated_once = [] →
     trim incidentInput ≠ "" →
     parseInt levelInput = Int lvl →
     let after :=
       app (fst (run [Submit incidentInput levelInput; Settle Throws]
                     generated_once)) in
     diagramInitialized after = true ∧
     chart after = Hidden ∧
     exportDisabled after = true ∧
     head (snd (printDiagram svg_ok win_ok after)) = Some MakeSvg).
Proof.
  split; [reflexivity|].
  apply (diagramInitialized_monotone generated_once). reflexivity.
Defined.

(** The scenario of C10 run through: generate, then a request that fails. *)
Example export_after_a_failure :
  let after :=
    app (fst (run [Submit "Slip on stairs" "3"; Settle Throws] generated_once)) in
  diagramInitialized after = true ∧ chart after = Hidden ∧
  exportDisabled after = true ∧
  model after = Fixtures.fire_2 ∧
  head (snd (printDiagram true true after)) = Some MakeSvg.
Proof. vm_compute. repeat split. Qed.

(** ** The further properties at concrete inputs *)

Lemma provider_trees_two_levels_deep_witness :
  child_node 4 2 "Old Wiring System" ∈ fakeApiCall "Fire in warehouse" 2 ∧
  ((∃ r, r ∈ fakeApiCall "Fire in warehouse" 2 ∧ key r = 2 ∧ parent r = None) ∨
   (∃ m r, m ∈ fakeApiCall "Fire in warehouse" 2 ∧
           r ∈ fakeApiCall "Fire in warehouse" 2 ∧
           key m = 2 ∧ parent m = Some (key r) ∧ parent r = None)).
Proof.
  assert (child_node 4 2 "Old Wiring System" ∈ fakeApiCall "Fire in warehouse" 2)
    as Hin.
  { vm_compute. repeat constructor. }
  split; [exact Hin|].
  exact (provider_trees_two_levels_deep "Fire in warehouse" 2
           (child_node 4 2 "Old Wiring System") 2 Hin eq_refl).
Defined.

Lemma generic_grows_with_level_witness :
  1 ≤ 3 ∧
  generateGenericData "Forklift collision" 1
    `sublist_of` generateGenericData "Forklift collision" 3 ∧
  (5 ≤ length (generateGenericData "Forklift collision" 1) ≤ 13)%nat.
Proof.
  split; [lia|]. apply (generic_grows_with_level "Forklift collision" 1 3). lia.
Defined.

Lemma generic_fanout_witness :
  2 ≤ 3 ≤ 5 ∧
  length (children 3 (generateGenericData "Forklift collision" 7)) = fanout 7.
Proof.
  split; [lia|]. apply (generic_fanout "Forklift collision" 7 3). lia.
Defined.

Lemma generic_key_scheme_witness :
  child_node 404 4 "Long-term Effect 1.1"
    ∈ generateGenericData "Forklift collision" 3 ∧
  ((4 = 1 ∧ 2 ≤ 404 ≤ 5) ∨
   (2 ≤ 4 ≤ 3 ∧ (404 = 4 + 100 ∨ 404 = 4 + 200)) ∨
   (4 ≤ 4 ≤ 5 ∧ (404 = 4 + 300 ∨ 404 = 4 + 400))).
Proof.
  assert (child_node 404 4 "Long-term Effect 1.1"
            ∈ generateGenericData "Forklift collision" 3) as Hin.
  { vm_compute. repeat constructor. }
  split; [exact Hin|].
  exact (generic_key_scheme "Forklift collision" 3
           (child_node 404 4 "Long-term Effect 1.1") Hin).
Defined.

Lemma provider_keys_and_names_witness :
  (∀ n, n ∈ fakeApiCall "Chemical spill" 2 →
        1 ≤ key n ≤ 405 ∧ ("Chemical spill" ≠ "" → name n ≠ "")) ∧
  ("Chemical spill" = "" → incidentType "Chemical spill" = "generic" →
   ∃ r, r ∈ fakeApiCall "Chemical spill" 2 ∧ name r = "").
Proof. exact (provider_keys_and_names "Chemical spill" 2). Defined.

Lemma fixtures_ignore_incident_text_witness :
  (incidentType "Fire in warehouse" = "fire" ∨
   incidentType "Fire in warehouse" = "slip") ∧
  incidentType "Campfire got out of hand" = incidentType "Fire in warehouse" ∧
  1 ≤ 3 ≤ 3 ∧
  fakeApiCall "Fire in warehouse" 3 = fakeApiCall "Campfire got out of hand" 3 ∧
  roots (fakeApiCall "Fire in warehouse" 3)
    = [root_node 1 (fixture_title (incidentType "Fire in warehouse"))].
Proof.
  split; [left; reflexivity|]. split; [reflexivity|]. split; [lia|].
  apply (fixtures_ignore_incident_text
           "Fire in warehouse" "Campfire got out of hand" 3);
    [left; reflexivity | reflexivity | lia].
Defined.

Lemma nonpositive_level_is_accepted_witness :
  trim " Fire in warehouse " ≠ "" ∧
  parseInt "0" = Int 0 ∧
  0 ≤ 0 ∧
  snd (fst (onSubmit " Fire in warehouse " "0" (init Unset true)))
    = [ApiCall (trim " Fire in warehouse ") 0] ∧
  snd (onSubmit " Fire in warehouse " "0" (init Unset true))
    = Some (generateGenericData (trim " Fire in warehouse ") 1) ∧
  length (generateGenericData (trim " Fire in warehouse ") 1) = 5%nat.
Proof.
  split; [discriminate|]. split; [reflexivity|]. split; [lia|].
  apply (nonpositive_level_is_accepted " Fire in warehouse " "0" 0
           (init Unset true)); [discriminate | reflexivity | lia].
Defined.

Lemma generation_round_trip_witness :
  inflight generated_once = [] ∧
  trim "Slip on stairs" ≠ "" ∧
  parseInt "3" = Int 3 ∧
  run [Submit "Slip on stairs" "3"; Settle Completes] generated_once
    = (mkSystem
         (mkApp (trim "Slip on stairs") (Some (Int 3)) true false
                (fakeApiCall (trim "Slip on stairs") 3) Hidden Block false)
         [],
       [ApiCall (trim "Slip on stairs") 3]) ∧
  well_formed (fakeApiCall (trim "Slip on stairs") 3) = true.
Proof.
  split; [reflexivity|]. split; [discriminate|]. split; [reflexivity|].
  apply (generation_round_trip "Slip on stairs" "3" 3 generated_once);
    [reflexivity | discriminate | reflexivity].
Defined.

Lemma init_ui_consistent chart0 : ui_consistent (init chart0 true).
Proof. unfold ui_consistent. simpl. repeat split; try done; discriminate. Defined.

Lemma ui_stays_consistent_witness :
  ui_consistent (init Unset true) ∧
  ui_consistent
    (app (fst (run [Submit "Fire in warehouse" "2"; Submit "Slip on stairs" "3";
                    Settle Completes; Export true true; Settle Throws]
                   (mkSystem (init Unset true) [])))).
Proof.
  split; [apply init_ui_consistent|].
  apply (ui_stays_consistent
           [Submit "Fire in warehouse" "2"; Submit "Slip on stairs" "3";
            Settle Completes; Export true true; Settle Throws]
           (mkSystem (init Unset true) [])).
  apply init_ui_consistent.
Defined.

Lemma diagram_trees_stay_well_formed_witness :
  trees_ok (mkSystem (init Unset true) []) ∧
  trees_ok
    (fst (run [Submit "Fire in warehouse" "2"; Submit "Slip on stairs" "9";
               Settle Throws; Settle Completes]
              (mkSystem (init Unset true) []))).
Proof.
  assert (trees_ok (mkSystem (init Unset true) [])) as Hinit.
  { split; [by left | constructor]. }
  split; [exact Hinit|].
  exact (diagram_trees_stay_well_formed
           [Submit "Fire in warehouse" "2"; Submit "Slip on stairs" "9";
            Settle Throws; Settle Completes]
           (mkSystem (init Unset true) []) Hinit).
Defined.

Lemma overlapping_submissions_witness :
  fst (run [Submit "Fire in warehouse" "2"; Submit "Slip on stairs" "3";
            Settle Completes] (mkSystem (init Unset true) []))
    = mkSystem
        (mkApp "Slip on stairs" (Some (Int 3)) true false
               Fixtures.fire_2 Hidden Block false)
        [Fixtures.slip_3].
Proof.
  destruct (overlapping_submissions
              "Fire in warehouse" "2" "Slip on stairs" "3" 2 3
              (mkSystem (init Unset true) []))
    as [Hfirst _];
    [reflexivity | discriminate | reflexivity | discriminate | reflexivity |].
  exact Hfirst.
Defined.

Lemma report_header_follows_latest_submission_witness :
  diagramInitialized (app generated_once) = true ∧
  model (app (fst (step (Submit "   " "x") generated_once)))
    = model (app generated_once) ∧
  DocumentWrite (trim "   ") (Some (parseInt "x"))
    ∈ snd (step (Export true true)
             (fst (step (Submit "   " "x") generated_once))).
Proof.
  split; [reflexivity|].
  apply (report_header_follows_latest_submission "   " "x" generated_once).
  reflexivity.
Defined.

Lemma printDiagram_resources_witness :
  CreateObjectURL ∈ snd (printDiagram true false (app generated_once)) ∧
  (SetTimeout RevokeObjectURL 30000
     ∉ snd (printDiagram true false (app generated_once))).
Proof.
  destruct (printDiagram_resources true false (app generated_once) eq_refl)
    as (_ & Hurl & _ & _ & Hrevoke & _).
  split; [by apply Hurl|].
  intros Hin. apply Hrevoke in Hin as [_ Hwin]. discriminate.
Defined.

Lemma failed_generation_round_trip_witness :
  inflight generated_once = [] ∧
  trim "Slip on stairs" ≠ "" ∧
  parseInt "3" = Int 3 ∧
  run [Submit "Slip on stairs" "3"; Settle Throws] generated_once
    = (mkSystem
         (mkApp (trim "Slip on stairs") (Some (Int 3))
                (diagramInitialized (app generated_once)) false
                (model (app generated_once)) Hidden Hidden true)
         [],
       [ApiCall (trim "Slip on stairs") 3;
        Alert "Failed to load diagram data"; ConsoleError]).
Proof.
  split; [reflexivity|]. split; [discriminate|]. split; [reflexivity|].
  apply (failed_generation_round_trip "Slip on stairs" "3" 3 generated_once);
    [reflexivity | discriminate | reflexivity].
Defined.


Lemma provider_lists_parents_first_witness :
  fakeApiCall "Slip on stairs" 3 !! 7%nat
    = Some (child_node 8 4 "Non-slip Soles Worn") ∧
  ∃ j m, (j < 7)%nat ∧ fakeApiCall "Slip on stairs" 3 !! j = Some m ∧ key m = 4.
Proof.
  split; [reflexivity|].
  exact (provider_lists_parents_first "Slip on stairs" 3 7
           (child_node 8 4 "Non-slip Soles Worn") 4 eq_refl eq_refl).
Defined.
